(** * The Multipass guide emitter

    A shallow embedding of [docs/multipass-setup.py]: a module body that binds
    one long text constant, writes it to [multipass_setup_guide.md] in the
    current directory and prints nine fixed lines.

    The embedding has three layers:
    - the text constant [guide_content], line for line as in the source;
    - the part of the interpreter and of the operating system the script
      touches ([open_w], [write], [close], [print], the [with] statement and
      the top level that turns an uncaught exception into an exit status),
      as a state-and-exception monad over a [world];
    - the script itself, [script], written statement for statement.

    Scope of the system model.  Text is kept as the UTF-8 bytes of the source
    file, the encoding the interpreter uses for both the file and the
    terminal on the platform the guide addresses; newline translation is the
    identity there.  The file system is a finite map from resolved paths to
    regular files and directories: links are not modelled.  Access rights are
    one flag per node, saying whether this process may write it.  The volume
    has a number of free bytes, which is how a write can fail.  Printing to
    the terminal does not fail. *)

From Stdlib Require Import Ascii String.
From stdpp Require Import gmap strings list fin_maps.

(** ** Text *)

(** The double quote and the line feed, which a string literal here cannot
    hold directly. *)
Definition dq : string := String "034"%char EmptyString.
Definition nl : string := String "010"%char EmptyString.

(** The size of a text in bytes. *)
Definition size (s : string) : N := N.of_nat (String.length s).

(** Every line followed by a line feed. *)
Definition unlines (ls : list string) : string :=
  foldr (fun l acc => l +:+ nl +:+ acc) EmptyString ls.

(** ** The guide

    [guide_lines] is the triple-quoted literal of source lines 2 to 471, one
    entry per source line (entry [n] of the list below sits on source line
    [n + 1]).  The literal opens right after the quotes and closes on a line
    of its own, so every line, the last included, ends in a line feed.  The
    escape [\\] of the source (lines 182-186 and 296-300) denotes one
    backslash; the literal has no other escape. *)
Definition guide_lines : list string := [
    "# Multipass Setup Guide: VM Management with Podman";
    EmptyString;
    "## Overview";
    "This guide provides complete instructions for setting up Multipass on macOS to manage Linux VMs with Docker-like workflow. Each VM can run containerized applications (like PostgreSQL) with full isolation and easy management.";
    EmptyString;
    "## Table of Contents";
    "1. [Installation](#installation)";
    "2. [Basic Setup](#basic-setup)";
    "3. [VM Configuration with Podman](#vm-configuration-with-podman)";
    "4. [VSCode Integration](#vscode-integration)";
    "5. [Common Operations](#common-operations)";
    "6. [Example Workflows](#example-workflows)";
    "7. [Troubleshooting](#troubleshooting)";
    EmptyString;
    "---";
    EmptyString;
    "## Installation";
    EmptyString;
    "### Install Multipass";
    "```bash";
    "# Install via Homebrew";
    "brew install --cask multipass";
    EmptyString;
    "# Verify installation";
    "multipass version";
    "```";
    EmptyString;
    "### Install VSCode Remote-SSH Extension";
    "```bash";
    "# Install Remote-SSH extension";
    "code --install-extension ms-vscode-remote.remote-ssh";
    "```";
    EmptyString;
    "---";
    EmptyString;
    "## Basic Setup";
    EmptyString;
    "### Create SSH Key (if needed)";
    "```bash";
    "# Generate SSH key if you don't have one";
    "ssh-keygen -t rsa -b 4096 -C " +:+ dq +:+ "your-email@example.com" +:+ dq;
    "```";
    EmptyString;
    "### Basic VM Commands";
    "```bash";
    "# List available Ubuntu images";
    "multipass find";
    EmptyString;
    "# Launch a basic VM";
    "multipass launch --name test-vm --cpus 2 --memory 4G --disk 20G";
    EmptyString;
    "# List running VMs";
    "multipass list";
    EmptyString;
    "# Get VM information";
    "multipass info test-vm";
    EmptyString;
    "# Execute commands in VM";
    "multipass exec test-vm -- uname -a";
    EmptyString;
    "# Get shell access";
    "multipass shell test-vm";
    EmptyString;
    "# Stop/Start/Delete VMs";
    "multipass stop test-vm";
    "multipass start test-vm";
    "multipass delete test-vm";
    "multipass purge  # Permanently remove deleted VMs";
    "```";
    EmptyString;
    "---";
    EmptyString;
    "## VM Configuration with Podman";
    EmptyString;
    "### Create Cloud-Init Configuration";
    "Create a file called `podman-setup.yaml`:";
    EmptyString;
    "```yaml";
    "#cloud-config";
    "package_update: true";
    "packages:";
    "  - podman";
    "  - podman-compose";
    "  - git";
    "  - curl";
    "  - vim";
    EmptyString;
    "users:";
    "  - name: ubuntu";
    "    groups: sudo";
    "    shell: /bin/bash";
    "    sudo: ['ALL=(ALL) NOPASSWD:ALL']";
    EmptyString;
    "runcmd:";
    "  # Enable podman socket for rootless operation";
    "  - systemctl --user enable podman.socket --now";
    "  - loginctl enable-linger ubuntu";
    EmptyString;
    "  # Create workspace directory";
    "  - mkdir -p /home/ubuntu/workspace";
    "  - chown ubuntu:ubuntu /home/ubuntu/workspace";
    EmptyString;
    "write_files:";
    "  - path: /home/ubuntu/.bashrc_append";
    "    content: |";
    "      # Podman aliases for Docker-like experience";
    "      alias docker='podman'";
    "      alias docker-compose='podman-compose'";
    "    append: true";
    "    owner: ubuntu:ubuntu";
    EmptyString;
    "final_message: " +:+ dq +:+ "VM setup complete! Podman is ready for rootless containers." +:+ dq;
    "```";
    EmptyString;
    "### Launch VM with Configuration";
    "```bash";
    "# Launch VM with Podman setup";
    "multipass launch --name dev-vm --cpus 2 --memory 4G --disk 20G --cloud-init podman-setup.yaml";
    EmptyString;
    "# Wait for cloud-init to complete (check status)";
    "multipass exec dev-vm -- cloud-init status --wait";
    "```";
    EmptyString;
    "---";
    EmptyString;
    "## VSCode Integration";
    EmptyString;
    "### Configure SSH Access";
    "```bash";
    "# Get VM IP address";
    "VM_IP=$(multipass info dev-vm | grep IPv4 | awk '{print $2}')";
    "echo " +:+ dq +:+ "VM IP: $VM_IP" +:+ dq;
    EmptyString;
    "# Copy SSH key to VM";
    "multipass exec dev-vm -- bash -c " +:+ dq +:+ "mkdir -p ~/.ssh && echo '$(cat ~/.ssh/id_rsa.pub)' >> ~/.ssh/authorized_keys" +:+ dq;
    "```";
    EmptyString;
    "### Add SSH Config";
    "Add to your `~/.ssh/config`:";
    "```bash";
    "Host dev-vm";
    "  HostName 192.168.64.X  # Replace with your VM's IP";
    "  User ubuntu";
    "  IdentityFile ~/.ssh/id_rsa";
    "  ServerAliveInterval 120";
    "```";
    EmptyString;
    "### Connect VSCode";
    "```bash";
    "# Open VSCode and connect to VM";
    "# Cmd+Shift+P → " +:+ dq +:+ "Remote-SSH: Connect to Host" +:+ dq +:+ " → Select " +:+ dq +:+ "dev-vm" +:+ dq;
    "# Or use command line:";
    "code --remote ssh-remote+dev-vm /home/ubuntu/workspace";
    "```";
    EmptyString;
    "---";
    EmptyString;
    "## Common Operations";
    EmptyString;
    "### File Mounting (VM ↔ Host)";
    "```bash";
    "# Create host directory for VM data";
    "mkdir -p ~/multipass-vms/dev-vm";
    EmptyString;
    "# Mount VM directory to host (for accessing VM files from macOS)";
    "multipass mount dev-vm:/home/ubuntu/workspace ~/multipass-vms/dev-vm";
    EmptyString;
    "# Mount host directory to VM (for sharing files from macOS to VM)";
    "multipass mount ~/projects dev-vm:/home/ubuntu/host-projects";
    EmptyString;
    "# List active mounts";
    "multipass info dev-vm | grep Mounts";
    "```";
    EmptyString;
    "### Container Management in VM";
    "```bash";
    "# Run a simple container";
    "multipass exec dev-vm -- podman run --rm -it ubuntu:22.04 echo " +:+ dq +:+ "Hello from container" +:+ dq;
    EmptyString;
    "# Run PostgreSQL container";
    "multipass exec dev-vm -- podman run -d \";
    "  --name postgres \";
    "  -e POSTGRES_PASSWORD=mysecret \";
    "  -v pgdata:/var/lib/postgresql/data \";
    "  -p 5432:5432 \";
    "  postgres:15";
    EmptyString;
    "# List running containers";
    "multipass exec dev-vm -- podman ps";
    EmptyString;
    "# View container logs";
    "multipass exec dev-vm -- podman logs postgres";
    EmptyString;
    "# Stop and remove container";
    "multipass exec dev-vm -- podman stop postgres";
    "multipass exec dev-vm -- podman rm postgres";
    "```";
    EmptyString;
    "---";
    EmptyString;
    "## Example Workflows";
    EmptyString;
    "### Workflow 1: Development Environment with Database";
    EmptyString;
    "#### 1. Create VM Configuration (`dev-env.yaml`)";
    "```yaml";
    "#cloud-config";
    "package_update: true";
    "packages:";
    "  - podman";
    "  - podman-compose";
    "  - nodejs";
    "  - npm";
    "  - git";
    EmptyString;
    "write_files:";
    "  - path: /home/ubuntu/docker-compose.yml";
    "    content: |";
    "      version: '3.8'";
    "      services:";
    "        postgres:";
    "          image: postgres:15";
    "          environment:";
    "            POSTGRES_DB: myapp";
    "            POSTGRES_USER: developer";
    "            POSTGRES_PASSWORD: devpass123";
    "          volumes:";
    "            - pgdata:/var/lib/postgresql/data";
    "          ports:";
    "            - " +:+ dq +:+ "5432:5432" +:+ dq;
    "        redis:";
    "          image: redis:7";
    "          ports:";
    "            - " +:+ dq +:+ "6379:6379" +:+ dq;
    "      volumes:";
    "        pgdata:";
    "    owner: ubuntu:ubuntu";
    EmptyString;
    "runcmd:";
    "  - chown -R ubuntu:ubuntu /home/ubuntu";
    "```";
    EmptyString;
    "#### 2. Launch and Setup";
    "```bash";
    "# Launch VM";
    "multipass launch --name app-dev --cpus 4 --memory 8G --cloud-init dev-env.yaml";
    EmptyString;
    "# Wait for setup";
    "multipass exec app-dev -- cloud-init status --wait";
    EmptyString;
    "# Create host directory and mount";
    "mkdir -p ~/multipass-vms/app-dev";
    "multipass mount app-dev:/home/ubuntu/workspace ~/multipass-vms/app-dev";
    EmptyString;
    "# Start services";
    "multipass exec app-dev -- podman-compose up -d";
    EmptyString;
    "# Verify services";
    "multipass exec app-dev -- podman ps";
    "```";
    EmptyString;
    "#### 3. Connect and Develop";
    "```bash";
    "# Connect VSCode";
    "code --remote ssh-remote+app-dev /home/ubuntu/workspace";
    EmptyString;
    "# Or get shell";
    "multipass shell app-dev";
    "```";
    EmptyString;
    "### Workflow 2: Quick PostgreSQL Instance";
    EmptyString;
    "#### Create Script (`quick-postgres.sh`)";
    "```bash";
    "#!/bin/bash";
    "VM_NAME=" +:+ dq +:+ "pg-${1:-$(date +%s)}" +:+ dq;
    "HOST_DIR=" +:+ dq +:+ "$HOME/multipass-vms/$VM_NAME" +:+ dq;
    EmptyString;
    "echo " +:+ dq +:+ "Creating PostgreSQL VM: $VM_NAME" +:+ dq;
    EmptyString;
    "# Launch VM";
    "multipass launch --name " +:+ dq +:+ "$VM_NAME" +:+ dq +:+ " --cpus 2 --memory 4G";
    EmptyString;
    "# Install Podman";
    "multipass exec " +:+ dq +:+ "$VM_NAME" +:+ dq +:+ " -- bash -c " +:+ dq;
    "  sudo apt update && sudo apt install -y podman";
    "  mkdir -p /home/ubuntu/pgdata";
    dq;
    EmptyString;
    "# Create host directory and mount";
    "mkdir -p " +:+ dq +:+ "$HOST_DIR" +:+ dq;
    "multipass mount " +:+ dq +:+ "$VM_NAME:/home/ubuntu" +:+ dq +:+ " " +:+ dq +:+ "$HOST_DIR" +:+ dq;
    EmptyString;
    "# Start PostgreSQL";
    "multipass exec " +:+ dq +:+ "$VM_NAME" +:+ dq +:+ " -- podman run -d \";
    "  --name postgres \";
    "  -e POSTGRES_PASSWORD=secret123 \";
    "  -v /home/ubuntu/pgdata:/var/lib/postgresql/data \";
    "  -p 5432:5432 \";
    "  postgres:15";
    EmptyString;
    "VM_IP=$(multipass info " +:+ dq +:+ "$VM_NAME" +:+ dq +:+ " | grep IPv4 | awk '{print $2}')";
    EmptyString;
    "echo " +:+ dq +:+ "PostgreSQL VM '$VM_NAME' ready!" +:+ dq;
    "echo " +:+ dq +:+ "Connection: psql -h $VM_IP -U postgres" +:+ dq;
    "echo " +:+ dq +:+ "Data location: $HOST_DIR/pgdata" +:+ dq;
    "echo " +:+ dq +:+ "Stop VM: multipass stop $VM_NAME" +:+ dq;
    "echo " +:+ dq +:+ "Delete VM: multipass delete $VM_NAME && multipass purge" +:+ dq;
    "```";
    EmptyString;
    "Usage:";
    "```bash";
    "chmod +x quick-postgres.sh";
    "./quick-postgres.sh my-project";
    "```";
    EmptyString;
    "---";
    EmptyString;
    "## Management Scripts";
    EmptyString;
    "### VM Lifecycle Script (`vm-manager.sh`)";
    "```bash";
    "#!/bin/bash";
    EmptyString;
    "VM_NAME=" +:+ dq +:+ "$1" +:+ dq;
    "ACTION=" +:+ dq +:+ "$2" +:+ dq;
    EmptyString;
    "case " +:+ dq +:+ "$ACTION" +:+ dq +:+ " in";
    "  create)";
    "    echo " +:+ dq +:+ "Creating VM: $VM_NAME" +:+ dq;
    "    multipass launch --name " +:+ dq +:+ "$VM_NAME" +:+ dq +:+ " --cpus 2 --memory 4G --disk 20G";
    "    multipass exec " +:+ dq +:+ "$VM_NAME" +:+ dq +:+ " -- sudo apt update";
    "    multipass exec " +:+ dq +:+ "$VM_NAME" +:+ dq +:+ " -- sudo apt install -y podman";
    "    ;;";
    "  start)";
    "    echo " +:+ dq +:+ "Starting VM: $VM_NAME" +:+ dq;
    "    multipass start " +:+ dq +:+ "$VM_NAME" +:+ dq;
    "    ;;";
    "  stop)";
    "    echo " +:+ dq +:+ "Stopping VM: $VM_NAME" +:+ dq;
    "    multipass stop " +:+ dq +:+ "$VM_NAME" +:+ dq;
    "    ;;";
    "  delete)";
    "    echo " +:+ dq +:+ "Deleting VM: $VM_NAME" +:+ dq;
    "    multipass delete " +:+ dq +:+ "$VM_NAME" +:+ dq;
    "    multipass purge";
    "    ;;";
    "  shell)";
    "    echo " +:+ dq +:+ "Connecting to VM: $VM_NAME" +:+ dq;
    "    multipass shell " +:+ dq +:+ "$VM_NAME" +:+ dq;
    "    ;;";
    "  info)";
    "    multipass info " +:+ dq +:+ "$VM_NAME" +:+ dq;
    "    ;;";
    "  *)";
    "    echo " +:+ dq +:+ "Usage: $0 <vm-name> <create|start|stop|delete|shell|info>" +:+ dq;
    "    ;;";
    "esac";
    "```";
    EmptyString;
    "Usage:";
    "```bash";
    "chmod +x vm-manager.sh";
    "./vm-manager.sh my-vm create";
    "./vm-manager.sh my-vm start";
    "./vm-manager.sh my-vm shell";
    "./vm-manager.sh my-vm stop";
    "```";
    EmptyString;
    "---";
    EmptyString;
    "## Troubleshooting";
    EmptyString;
    "### Common Issues";
    EmptyString;
    "#### VM Won't Start";
    "```bash";
    "# Check VM status";
    "multipass list";
    EmptyString;
    "# View VM logs";
    "multipass exec vm-name -- dmesg";
    EmptyString;
    "# Restart Multipass daemon (macOS)";
    "sudo launchctl stop com.canonical.multipass.multipassd";
    "sudo launchctl start com.canonical.multipass.multipassd";
    "```";
    EmptyString;
    "#### SSH Connection Issues";
    "```bash";
    "# Regenerate SSH key in VM";
    "multipass exec vm-name -- ssh-keygen -f ~/.ssh/id_rsa -N " +:+ dq +:+ dq;
    EmptyString;
    "# Re-copy public key";
    "multipass exec vm-name -- bash -c " +:+ dq +:+ "echo '$(cat ~/.ssh/id_rsa.pub)' >> ~/.ssh/authorized_keys" +:+ dq;
    "```";
    EmptyString;
    "#### Container Issues";
    "```bash";
    "# Check Podman status";
    "multipass exec vm-name -- systemctl --user status podman";
    EmptyString;
    "# Restart Podman service";
    "multipass exec vm-name -- systemctl --user restart podman";
    EmptyString;
    "# Check container logs";
    "multipass exec vm-name -- podman logs container-name";
    "```";
    EmptyString;
    "#### Mount Issues";
    "```bash";
    "# Unmount and remount";
    "multipass umount vm-name";
    "multipass mount vm-name:/path/to/source ~/local/path";
    EmptyString;
    "# Check mount permissions";
    "multipass exec vm-name -- ls -la /mounted/path";
    "```";
    EmptyString;
    "### Performance Tips";
    EmptyString;
    "1. **Resource Allocation**: Start with 2 CPUs and 4GB RAM, adjust based on workload";
    "2. **Disk Space**: Use at least 20GB for development VMs";
    "3. **Multiple VMs**: Stop unused VMs to save resources";
    "4. **Container Storage**: Use volumes for persistent data";
    EmptyString;
    "### Cleaning Up";
    "```bash";
    "# Stop all VMs";
    "multipass list | grep Running | awk '{print $1}' | xargs -I {} multipass stop {}";
    EmptyString;
    "# Delete all VMs";
    "multipass delete --all";
    "multipass purge";
    EmptyString;
    "# Clean up host directories";
    "rm -rf ~/multipass-vms/*";
    "```";
    EmptyString;
    "---";
    EmptyString;
    "## Quick Reference";
    EmptyString;
    "### Essential Commands";
    "```bash";
    "# VM Management";
    "multipass launch --name NAME";
    "multipass list";
    "multipass info NAME";
    "multipass shell NAME";
    "multipass stop/start/delete NAME";
    EmptyString;
    "# File Operations";
    "multipass mount SOURCE TARGET";
    "multipass transfer FILE VM:/path";
    "multipass umount VM";
    EmptyString;
    "# Container Operations (inside VM)";
    "podman run -d --name NAME IMAGE";
    "podman ps";
    "podman logs NAME";
    "podman stop/start/rm NAME";
    "```";
    EmptyString;
    "### Default Locations";
    "- VM Storage: `~/Library/Application Support/multipassd/`";
    "- SSH Config: `~/.ssh/config`";
    "- Cloud-init logs: `/var/log/cloud-init.log` (in VM)";
    EmptyString;
    "This guide provides everything needed to get started with Multipass for VM-based development with containerized applications."
  ].

Definition guide_content : string := unlines guide_lines.

Arguments guide_content : simpl never.

(** The name the script opens, source line 475. *)
Definition output_name : string := "multipass_setup_guide.md".

(** ** The world of a run *)

(** A resolved path: the components from the root. *)
Abbreviation path := (list string).

(** A node of the file system.  The flag says whether this process may write
    the file, or add entries to the directory. *)
Inductive node : Type :=
  | File (writable : bool) (data : string)
  | Dir (writable : bool).

Inductive errno : Type := ENOENT | EBADF | EACCES | ENOTDIR | EISDIR | ENOSPC.

(** The one kind of exception the script can meet: [OSError] with its error
    number and, for a failed [open], the file name as the script gave it. *)
Inductive exn : Type :=
  | OSError (e : errno) (filename : option string).

(** What the process asks of the system, in the order it asks. *)
Inductive event : Type :=
  | EvOpen (p : path)
  | EvWrite (fd : nat) (data : string)
  | EvClose (fd : nat)
  | EvPrint (text : string).

Record world : Type := World {
  cwd : path;                 (* the current working directory *)
  fs : gmap path node;        (* the file system *)
  room : N;                   (* free bytes on the volume *)
  fds : gmap nat path;        (* the open descriptors of the process *)
  stdout : string;            (* what standard output has received *)
  stderr : string;            (* what standard error has received *)
  log : list event            (* the requests made so far, oldest first *)
}.

Definition set_fs (m : gmap path node) (w : world) : world :=
  World (cwd w) m (room w) (fds w) (stdout w) (stderr w) (log w).
Definition set_room (n : N) (w : world) : world :=
  World (cwd w) (fs w) n (fds w) (stdout w) (stderr w) (log w).
Definition set_fds (t : gmap nat path) (w : world) : world :=
  World (cwd w) (fs w) (room w) t (stdout w) (stderr w) (log w).
Definition set_stdout (s : string) (w : world) : world :=
  World (cwd w) (fs w) (room w) (fds w) s (stderr w) (log w).
Definition set_stderr (s : string) (w : world) : world :=
  World (cwd w) (fs w) (room w) (fds w) (stdout w) s (log w).
Definition record (e : event) (w : world) : world :=
  World (cwd w) (fs w) (room w) (fds w) (stdout w) (stderr w) (log w ++ [e]).

(** A relative name of one component, resolved against the working
    directory. *)
Definition resolve (w : world) (name : string) : path := cwd w ++ [name].

(** The text of the regular file at [p], if there is one. *)
Definition contents (w : world) (p : path) : option string :=
  match fs w !! p with
  | Some (File _ data) => Some data
  | _ => None
  end.

(** ** Statements: state and exceptions

    A statement runs in a world and either completes with a value or raises;
    the world it leaves is kept in both cases, since effects are not undone
    by an exception. *)
Inductive outcome (A : Type) : Type :=
  | Done (a : A)
  | Raised (e : exn).
Arguments Done {A} a.
Arguments Raised {A} e.

Definition M (A : Type) : Type := world -> outcome A * world.

#[global] Instance M_ret : MRet M := fun A a w => (Done a, w).
#[global] Instance M_bind : MBind M := fun A B k m w =>
  match m w with
  | (Done a, w1) => k a w1
  | (Raised e, w1) => (Raised e, w1)
  end.

Definition raise {A : Type} (e : exn) : M A := fun w => (Raised e, w).

(** [try: ... finally: ...]: the cleanup runs on both exits, and an exception
    of the body goes on after it. *)
Definition finally {A : Type} (body : M A) (cleanup : M ()) : M A := fun w =>
  match body w with
  | (Done a, w1) => (cleanup ;; mret a) w1
  | (Raised e, w1) => (cleanup ;; raise e) w1
  end.

(** ** The system calls behind the file object *)

(** [open(name, 'w')]: create the file or truncate it, and hand out an unused
    descriptor.  All failures leave the file system as it was. *)
Definition open_w (name : string) : M nat := fun w =>
  let p := resolve w name in
  let w0 := record (EvOpen p) w in
  let fd := fresh (dom (fds w)) in
  match fs w !! cwd w with
  | None => (Raised (OSError ENOENT (Some name)), w0)
  | Some (File _ _) => (Raised (OSError ENOTDIR (Some name)), w0)
  | Some (Dir dw) =>
      match fs w !! p with
      | Some (Dir _) => (Raised (OSError EISDIR (Some name)), w0)
      | Some (File fw old) =>
          if fw
          then (Done fd,
                set_fds (<[fd := p]> (fds w))
                  (set_room (room w + size old)
                     (set_fs (<[p := File fw EmptyString]> (fs w)) w0)))
          else (Raised (OSError EACCES (Some name)), w0)
      | None =>
          if dw
          then (Done fd,
                set_fds (<[fd := p]> (fds w))
                  (set_fs (<[p := File true EmptyString]> (fs w)) w0))
          else (Raised (OSError EACCES (Some name)), w0)
      end
  end.

(** [f.write(s)]: append [s] to the file behind the descriptor.  When the
    volume has less room than [s] needs, what fits is written and the call
    raises.  The count [write] returns is left out: the script drops it. *)
Definition write (fd : nat) (s : string) : M () := fun w =>
  let w0 := record (EvWrite fd s) w in
  match fds w !! fd with
  | None => (Raised (OSError EBADF None), w0)
  | Some p =>
      match fs w !! p with
      | Some (File fw old) =>
          if decide (size s <= room w)%N
          then (Done (),
                set_room (room w - size s)
                  (set_fs (<[p := File fw (old +:+ s)]> (fs w)) w0))
          else (Raised (OSError ENOSPC None),
                set_room 0
                  (set_fs (<[p := File fw (old +:+ substring 0 (N.to_nat (room w)) s)]> (fs w)) w0))
      | _ => (Raised (OSError EBADF None), w0)
      end
  end.

(** [f.close()], which the [with] statement calls on leaving the block. *)
Definition close (fd : nat) : M () := fun w =>
  (Done (), set_fds (delete fd (fds w)) (record (EvClose fd) w)).

(** [with open(name, 'w') as f: body]. *)
Definition with_open {A : Type} (name : string) (body : nat -> M A) : M A :=
  f ← open_w name; finally (body f) (close f).

(** [print(s)]: the text and a line feed go to standard output. *)
Definition print (s : string) : M () := fun w =>
  (Done (), set_stdout (stdout w +:+ s +:+ nl) (record (EvPrint s) w)).

(** ** The script, source lines 474 to 486 *)

(** Lines 475 and 476, under the comment [# Write to file]. *)
Definition write_to_file : M () :=
  with_open output_name (fun f => write f guide_content).

(** Lines 478 to 486. *)
Definition report : M () :=
  print "✅ Created comprehensive Multipass setup guide: multipass_setup_guide.md" ;;
  print (nl +:+ "File contains:") ;;
  print "- Complete installation instructions" ;;
  print "- VM configuration with Podman" ;;
  print "- VSCode remote development setup" ;;
  print "- File mounting (bidirectional)" ;;
  print "- Example workflows and scripts" ;;
  print "- Troubleshooting section" ;;
  print "- Quick reference commands".

(** The module body.  The interpreter hands it the command line and the
    environment; the body reads neither. *)
Definition script (argv : list string) (environ : gmap string string) : M () :=
  write_to_file ;; report.

(** ** The interpreter's top level *)

Definition errno_number (e : errno) : string :=
  match e with
  | ENOENT => "2" | EBADF => "9" | EACCES => "13"
  | ENOTDIR => "20" | EISDIR => "21" | ENOSPC => "28"
  end.

Definition strerror (e : errno) : string :=
  match e with
  | ENOENT => "No such file or directory"
  | EBADF => "Bad file descriptor"
  | EACCES => "Permission denied"
  | ENOTDIR => "Not a directory"
  | EISDIR => "Is a directory"
  | ENOSPC => "No space left on device"
  end.

(** The subclass of [OSError] the interpreter picks for an error number. *)
Definition class_name (e : errno) : string :=
  match e with
  | ENOENT => "FileNotFoundError"
  | EACCES => "PermissionError"
  | ENOTDIR => "NotADirectoryError"
  | EISDIR => "IsADirectoryError"
  | EBADF | ENOSPC => "OSError"
  end.

(** The last line of a traceback: the class and the message of the
    exception. *)
Definition describe (x : exn) : string :=
  match x with
  | OSError e filename =>
      class_name e +:+ ": [Errno " +:+ errno_number e +:+ "] " +:+ strerror e +:+
      match filename with
      | Some name => ": '" +:+ name +:+ "'"
      | None => EmptyString
      end
  end.

(** What reaches standard error for an uncaught exception.  The frame lines
    between the heading and the last line name the place of the script on
    disk and are left out. *)
Definition traceback (x : exn) : string :=
  "Traceback (most recent call last):" +:+ nl +:+ describe x +:+ nl.

(** Running the script as a process: the exit status and the world left
    behind.  An exception that reaches the top level is reported on standard
    error and the status is 1. *)
Definition run (argv : list string) (environ : gmap string string) (w : world)
  : nat * world :=
  match script argv environ w with
  | (Done _, w1) => (0, w1)
  | (Raised x, w1) => (1, set_stderr (stderr w1 +:+ traceback x) w1)
  end.

(** ** Vocabulary of the properties *)

(** The path the script writes. *)
Definition target (w : world) : path := resolve w output_name.

(** The requests a run made: what the log gained between two worlds. *)
Definition requests (w w' : world) : list event := drop (length (log w)) (log w').


(** The working directory is gone. *)
Definition parent_missing (w : world) : bool :=
  match fs w !! cwd w with
  | None => true
  | Some _ => false
  end.

(** The access rights refuse the write: the file is there and may not be
    written, or it is not there and the directory takes no new entry. *)
Definition write_denied (w : world) : bool :=
  match fs w !! cwd w with
  | Some (Dir dw) =>
      match fs w !! target w with
      | Some (File fw _) => negb fw
      | Some (Dir _) => false
      | None => negb dw
      end
  | _ => false
  end.

(** The target can be opened for writing: the working directory is a
    directory, and either the target is a regular file this process may
    write, or it is absent and the directory takes new entries. *)
Definition openable (w : world) : bool :=
  match fs w !! cwd w with
  | Some (Dir dw) =>
      match fs w !! target w with
      | Some (File fw _) => fw
      | Some (Dir _) => false
      | None => dw
      end
  | _ => false
  end.

(** The bytes truncation gives back to the volume. *)
Definition reclaimed (w : world) : N :=
  match fs w !! target w with
  | Some (File _ old) => size old
  | _ => 0
  end.

(** The target is writable: it can be opened for writing and the volume
    takes the guide. *)
Definition writable (w : world) : bool :=
  openable w && (size guide_content <=? room w + reclaimed w)%N.

(** The nine arguments of [print], in order. *)
Definition confirmation : list string := [
    "✅ Created comprehensive Multipass setup guide: multipass_setup_guide.md";
    nl +:+ "File contains:";
    "- Complete installation instructions";
    "- VM configuration with Podman";
    "- VSCode remote development setup";
    "- File mounting (bidirectional)";
    "- Example workflows and scripts";
    "- Troubleshooting section";
    "- Quick reference commands"
  ].

(** *** The worlds a run passes through *)

(** The world right after a successful [open]. *)
Definition opened (w : world) : world :=
  set_fds (<[fresh (dom (fds w)) := target w]> (fds w))
    (set_room (room w + reclaimed w)
       (set_fs (<[target w := File true EmptyString]> (fs w))
          (record (EvOpen (target w)) w))).

(** The world after the guide went into the freshly opened file. *)
Definition filled (w : world) : world :=
  set_room (room w + reclaimed w - size guide_content)
    (set_fs (<[target w := File true guide_content]> (fs (opened w)))
       (record (EvWrite (fresh (dom (fds w))) guide_content) (opened w))).

(** The world after a write that found the volume too small. *)
Definition choked (w : world) : world :=
  set_room 0
    (set_fs (<[target w := File true (substring 0 (N.to_nat (room w + reclaimed w)) guide_content)]>
               (fs (opened w)))
       (record (EvWrite (fresh (dom (fds w))) guide_content) (opened w))).

(** The world after [write_to_file] went through. *)
Definition saved (w : world) : world :=
  let fd := fresh (dom (fds w)) in
  World (cwd w)
        (<[target w := File true guide_content]> (fs w))
        (room w + reclaimed w - size guide_content)
        (fds w) (stdout w) (stderr w)
        (log w ++ [EvOpen (target w); EvWrite fd guide_content; EvClose fd]).

(** The world after [write_to_file] ran out of room: the file holds what
    fitted, and the descriptor is closed all the same. *)
Definition cut_short (w : world) : world :=
  let fd := fresh (dom (fds w)) in
  World (cwd w)
        (<[target w := File true (substring 0 (N.to_nat (room w + reclaimed w)) guide_content)]>
           (fs w))
        0 (fds w) (stdout w) (stderr w)
        (log w ++ [EvOpen (target w); EvWrite fd guide_content; EvClose fd]).

(** The world after the nine [print]s. *)
Definition reported (w : world) : world :=
  World (cwd w) (fs w) (room w) (fds w)
        (stdout w +:+ unlines confirmation) (stderr w)
        (log w ++ map EvPrint confirmation).

(** The world a successful run leaves. *)
Definition emitted (w : world) : world :=
  let fd := fresh (dom (fds w)) in
  World (cwd w)
        (<[target w := File true guide_content]> (fs w))
        (room w + reclaimed w - size guide_content)
        (fds w)
        (stdout w +:+ unlines confirmation)
        (stderr w)
        (log w ++ [EvOpen (target w); EvWrite fd guide_content; EvClose fd]
               ++ map EvPrint confirmation).

(** *** Outcome of a run, read off the world it starts in *)

(** The error number [open] fails with, if it fails: the working directory
    is gone, or is no directory; the target is a directory; or the access
    rights refuse. *)
Definition open_errno (w : world) : option errno :=
  match fs w !! cwd w with
  | None => Some ENOENT
  | Some (File _ _) => Some ENOTDIR
  | Some (Dir dw) =>
      match fs w !! target w with
      | Some (Dir _) => Some EISDIR
      | Some (File fw _) => if fw then None else Some EACCES
      | None => if dw then None else Some EACCES
      end
  end.

(** The descriptors a list of requests closes. *)
Definition closed_fds (l : list event) : list nat :=
  omap (fun e => match e with EvClose fd => Some fd | _ => None end) l.

(** ** Sample worlds *)

Definition home : path := ["home"; "operator"].

(** An empty directory the process may write, on a volume with room. *)
Definition empty_dir : world :=
  World home {[ home := Dir true ]} 20000 ∅ EmptyString EmptyString [].

(** The same directory, closed to writing. *)
Definition readonly_dir : world :=
  World home {[ home := Dir false ]} 20000 ∅ EmptyString EmptyString [].

(** A working directory that was removed under the process. *)
Definition removed_dir : world :=
  World home ∅ 20000 ∅ EmptyString EmptyString [].

(** A writable directory on a volume with a hundred bytes left, holding an
    earlier file of that name. *)
Definition full_volume : world :=
  World home {[ home := Dir true; home ++ [output_name] := File true "draft" ]}
        100 ∅ EmptyString EmptyString [].

(** A directory with an earlier output and a neighbour file. *)
Definition used_dir : world :=
  World home
        {[ home := Dir true;
           home ++ [output_name] := File true "stale text";
           home ++ ["notes.txt"] := File false "keep" ]}
        20000 ∅ "earlier output" EmptyString [EvPrint "earlier output"].

(** A writable directory where [multipass_setup_guide.md] is a directory. *)
Definition dir_in_the_way : world :=
  World home {[ home := Dir true; home ++ [output_name] := Dir true ]}
        20000 ∅ EmptyString EmptyString [].


(** ** Laws of the system model *)

(** Two worlds with the same seven fields are the same world. *)
Lemma world_ext (w1 w2 : world) :
  cwd w1 = cwd w2 -> fs w1 = fs w2 -> room w1 = room w2 -> fds w1 = fds w2 ->
  stdout w1 = stdout w2 -> stderr w1 = stderr w2 -> log w1 = log w2 ->
  w1 = w2.
Proof. destruct w1, w2; cbn; intros; subst; reflexivity. Qed.

(** Projections out of updates of a [world], field by field: the updates
    nest, so they are never unfolded as a whole, and the guide stays
    folded. *)
Ltac world_simpl :=
  cbn [cwd fs room fds stdout stderr log
       set_fs set_room set_fds set_stdout set_stderr record fst snd].

Ltac world_eq := apply world_ext; world_simpl; try reflexivity.

Lemma append_cons (c : ascii) (s t : string) : String c s +:+ t = String c (s +:+ t).
Proof. reflexivity. Qed.

Lemma append_assoc (s1 s2 s3 : string) : (s1 +:+ s2) +:+ s3 = s1 +:+ s2 +:+ s3.
Proof.
  induction s1 as [|c s1 IH]; [reflexivity|].
  by rewrite !append_cons, IH.
Qed.

Lemma bind_done {A B : Type} (m : M A) (k : A -> M B) (w w1 : world) (a : A) :
  m w = (Done a, w1) -> (m ≫= k) w = k a w1.
Proof. intros H. unfold mbind, M_bind. by rewrite H. Qed.

Lemma bind_raised {A B : Type} (m : M A) (k : A -> M B) (w w1 : world) (x : exn) :
  m w = (Raised x, w1) -> (m ≫= k) w = (Raised x, w1).
Proof. intros H. unfold mbind, M_bind. by rewrite H. Qed.

Lemma open_w_done (w : world) :
  openable w = true ->
  open_w output_name w = (Done (fresh (dom (fds w))), opened w).
Proof.
  unfold openable, open_w, opened, reclaimed, target.
  destruct (fs w !! cwd w) as [[?|dw]|]; try discriminate.
  destruct (fs w !! resolve w output_name) as [[fw old|?]|]; try discriminate.
  - intros ->. reflexivity.
  - intros ->. f_equal. world_eq. by rewrite N.add_0_r.
Qed.

(** A refused [open] raises and changes nothing but the log. *)
Lemma open_w_refused (w : world) :
  openable w = false ->
  exists e, open_w output_name w
            = (Raised (OSError e (Some output_name)), record (EvOpen (target w)) w).
Proof.
  unfold openable, open_w, target.
  destruct (fs w !! cwd w) as [[?|dw]|]; [by eexists| |by eexists].
  destruct (fs w !! resolve w output_name) as [[fw old|?]|];
    intros H; subst; by eexists.
Qed.

Lemma open_w_missing (w : world) :
  parent_missing w = true ->
  open_w output_name w
  = (Raised (OSError ENOENT (Some output_name)), record (EvOpen (target w)) w).
Proof.
  unfold parent_missing, open_w, target.
  by destruct (fs w !! cwd w) as [[?|dw]|].
Qed.

Lemma open_w_denied (w : world) :
  write_denied w = true ->
  open_w output_name w
  = (Raised (OSError EACCES (Some output_name)), record (EvOpen (target w)) w).
Proof.
  unfold write_denied, open_w, target.
  destruct (fs w !! cwd w) as [[?|dw]|]; try discriminate.
  destruct (fs w !! resolve w output_name) as [[[] old|?]|]; try discriminate;
    by destruct dw.
Qed.

Lemma missing_not_openable (w : world) : parent_missing w = true -> openable w = false.
Proof. unfold parent_missing, openable. by destruct (fs w !! cwd w) as [[?|?]|]. Qed.

Lemma denied_not_openable (w : world) : write_denied w = true -> openable w = false.
Proof.
  unfold write_denied, openable.
  destruct (fs w !! cwd w) as [[?|dw]|]; try done.
  destruct (fs w !! target w) as [[[] ?|?]|]; try done. by destruct dw.
Qed.

Lemma write_done (w : world) :
  (size guide_content <= room w + reclaimed w)%N ->
  write (fresh (dom (fds w))) guide_content (opened w) = (Done (), filled w).
Proof.
  intros Hfit. unfold write, filled.
  replace (fds (opened w) !! fresh (dom (fds w))) with (Some (target w))
    by (symmetry; apply lookup_insert_eq).
  replace (fs (opened w) !! target w) with (Some (File true EmptyString))
    by (symmetry; apply lookup_insert_eq).
  replace (room (opened w)) with (room w + reclaimed w)%N by reflexivity.
  by rewrite decide_True.
Qed.

Lemma write_raised (w : world) :
  (room w + reclaimed w < size guide_content)%N ->
  write (fresh (dom (fds w))) guide_content (opened w)
  = (Raised (OSError ENOSPC None), choked w).
Proof.
  intros Hfit. unfold write, choked.
  replace (fds (opened w) !! fresh (dom (fds w))) with (Some (target w))
    by (symmetry; apply lookup_insert_eq).
  replace (fs (opened w) !! target w) with (Some (File true EmptyString))
    by (symmetry; apply lookup_insert_eq).
  replace (room (opened w)) with (room w + reclaimed w)%N by reflexivity.
  rewrite decide_False by lia. reflexivity.
Qed.

(** Closing the descriptor [open] handed out restores the table. *)
Lemma close_restores (w : world) :
  delete (fresh (dom (fds w))) (<[fresh (dom (fds w)) := target w]> (fds w)) = fds w.
Proof.
  apply delete_insert_id, not_elem_of_dom, is_fresh.
Qed.

(** ** What the two parts of the script do *)

Lemma writable_inv (w : world) :
  writable w = true ->
  openable w = true /\ (size guide_content <= room w + reclaimed w)%N.
Proof.
  unfold writable. intros [H1 H2]%andb_true_iff. split; [done|].
  by apply N.leb_le.
Qed.

Lemma write_to_file_done (w : world) :
  writable w = true -> write_to_file w = (Done (), saved w).
Proof.
  intros [Hopen Hfit]%writable_inv.
  unfold write_to_file, with_open.
  rewrite (bind_done _ _ _ _ _ (open_w_done w Hopen)).
  unfold finally. rewrite (write_done w Hfit).
  unfold mbind, M_bind, mret, M_ret, close. f_equal.
  unfold saved, filled, opened. world_eq.
  - apply insert_insert_eq.
  - apply close_restores.
  - by rewrite <- !app_assoc.
Qed.

Lemma write_to_file_refused (w : world) :
  openable w = false ->
  exists e, write_to_file w
            = (Raised (OSError e (Some output_name)), record (EvOpen (target w)) w).
Proof.
  intros [e He]%open_w_refused. exists e.
  unfold write_to_file, with_open. by rewrite (bind_raised _ _ _ _ _ He).
Qed.

Lemma write_to_file_cut_short (w : world) :
  openable w = true -> (room w + reclaimed w < size guide_content)%N ->
  write_to_file w = (Raised (OSError ENOSPC None), cut_short w).
Proof.
  intros Hopen Hfit.
  unfold write_to_file, with_open.
  rewrite (bind_done _ _ _ _ _ (open_w_done w Hopen)).
  unfold finally. rewrite (write_raised w Hfit).
  unfold mbind, M_bind, raise, close. f_equal.
  unfold cut_short, choked, opened. world_eq.
  - apply insert_insert_eq.
  - apply close_restores.
  - by rewrite <- !app_assoc.
Qed.

(** [write_to_file] ends in one of three ways, told apart by the world it
    starts in. *)
Lemma write_to_file_cases (w : world) :
  (writable w = true /\ write_to_file w = (Done (), saved w))
  \/ (openable w = false /\
      exists e, write_to_file w
                = (Raised (OSError e (Some output_name)), record (EvOpen (target w)) w))
  \/ (openable w = true /\ writable w = false /\
      write_to_file w = (Raised (OSError ENOSPC None), cut_short w)).
Proof.
  destruct (openable w) eqn:Hopen.
  - destruct (size guide_content <=? room w + reclaimed w)%N eqn:Hfit.
    + left. assert (writable w = true) as Hw by (unfold writable; by rewrite Hopen, Hfit).
      split; [done | by apply write_to_file_done].
    + right; right. split; [done|]. split; [unfold writable; by rewrite Hopen, Hfit|].
      apply write_to_file_cut_short; [done | by apply N.leb_gt].
  - right; left. split; [done | by apply write_to_file_refused].
Qed.

Lemma report_done (w : world) : report w = (Done (), reported w).
Proof.
  unfold report, print, mbind, M_bind. f_equal.
  unfold reported. world_eq.
  - by rewrite !append_assoc.
  - by rewrite <- !app_assoc.
Qed.

Lemma reported_saved (w : world) : reported (saved w) = emitted w.
Proof. unfold reported, saved, emitted. world_eq. by rewrite <- app_assoc. Qed.

(** *** The script as a whole *)

Lemma script_done (argv : list string) (environ : gmap string string) (w : world) :
  writable w = true -> script argv environ w = (Done (), emitted w).
Proof.
  intros Hw. unfold script.
  rewrite (bind_done _ _ _ _ _ (write_to_file_done w Hw)).
  by rewrite report_done, reported_saved.
Qed.

Lemma script_raised (argv : list string) (environ : gmap string string)
    (w w1 : world) (x : exn) :
  write_to_file w = (Raised x, w1) -> script argv environ w = (Raised x, w1).
Proof. intros H. unfold script. by rewrite (bind_raised _ _ _ _ _ H). Qed.

(** The script ends well exactly from a world whose target is writable, and
    then leaves [emitted]. *)
Lemma script_done_inv (argv : list string) (environ : gmap string string)
    (w w' : world) :
  script argv environ w = (Done (), w') -> writable w = true /\ w' = emitted w.
Proof.
  intros H.
  destruct (write_to_file_cases w) as [[Hw _]|[[_ [e He]]|(_ & _ & Hc)]].
  - split; [done|]. rewrite (script_done _ _ _ Hw) in H. congruence.
  - rewrite (script_raised _ _ _ _ _ He) in H. discriminate.
  - rewrite (script_raised _ _ _ _ _ Hc) in H. discriminate.
Qed.

(** ** The script on the sample worlds *)

Example run_empty_dir :
  run ["multipass-setup.py"] ∅ empty_dir = (0, emitted empty_dir).
Proof. vm_compute; reflexivity. Qed.

Example run_readonly_dir :
  run ["multipass-setup.py"] ∅ readonly_dir
  = (1, World home {[ home := Dir false ]} 20000 ∅ EmptyString
          ("Traceback (most recent call last):" +:+ nl +:+
           "PermissionError: [Errno 13] Permission denied: 'multipass_setup_guide.md'"
           +:+ nl)
          [EvOpen (home ++ [output_name])]).
Proof. vm_compute; reflexivity. Qed.

Example run_removed_dir :
  run ["multipass-setup.py"] ∅ removed_dir
  = (1, World home ∅ 20000 ∅ EmptyString
          ("Traceback (most recent call last):" +:+ nl +:+
           "FileNotFoundError: [Errno 2] No such file or directory: 'multipass_setup_guide.md'"
           +:+ nl)
          [EvOpen (home ++ [output_name])]).
Proof. vm_compute; reflexivity. Qed.

(** On the full volume the earlier file is truncated, the hundred and five
    bytes that fit are written, and the run ends in [ENOSPC]. *)
Example run_full_volume :
  fst (run ["multipass-setup.py"] ∅ full_volume) = 1
  /\ contents (snd (run ["multipass-setup.py"] ∅ full_volume)) (target full_volume)
     = Some (substring 0 105 guide_content)
  /\ stdout (snd (run ["multipass-setup.py"] ∅ full_volume)) = EmptyString.
Proof. repeat split; vm_compute; reflexivity. Qed.

Example guide_content_size : size guide_content = 10290%N.
Proof. vm_compute; reflexivity. Qed.

Example guide_content_lines : length guide_lines = 470.
Proof. vm_compute; reflexivity. Qed.

(** *** Reading the log and the file system of the worlds above *)

Lemma requests_app (w w' : world) (d : list event) :
  log w' = log w ++ d -> requests w w' = d.
Proof. intros H. unfold requests. rewrite H. apply drop_app_length. Qed.

Lemma requests_emitted (w : world) :
  requests w (emitted w)
  = [EvOpen (target w); EvWrite (fresh (dom (fds w))) guide_content;
     EvClose (fresh (dom (fds w)))] ++ map EvPrint confirmation.
Proof. by apply requests_app. Qed.

Lemma requests_saved (w : world) :
  requests w (saved w)
  = [EvOpen (target w); EvWrite (fresh (dom (fds w))) guide_content;
     EvClose (fresh (dom (fds w)))].
Proof. by apply requests_app. Qed.

Lemma requests_cut_short (w : world) :
  requests w (cut_short w)
  = [EvOpen (target w); EvWrite (fresh (dom (fds w))) guide_content;
     EvClose (fresh (dom (fds w)))].
Proof. by apply requests_app. Qed.

Lemma requests_refused (w : world) :
  requests w (record (EvOpen (target w)) w) = [EvOpen (target w)].
Proof. by apply requests_app. Qed.

Lemma contents_emitted (w : world) :
  contents (emitted w) (target w) = Some guide_content.
Proof. unfold contents, emitted; world_simpl. by rewrite lookup_insert_eq. Qed.

Lemma contents_saved (w : world) :
  contents (saved w) (target w) = Some guide_content.
Proof. unfold contents, saved; world_simpl. by rewrite lookup_insert_eq. Qed.




(** ** The properties of the specification *)



(** C2.  Running the script twice is idempotent on the file: when a second
    run ends well after a first one, the file holds what it held after the
    first run, the guide once, and the file system as a whole is the one
    the first run left. *)
Theorem emit_twice_same_content
    (argv1 argv2 : list string) (environ1 environ2 : gmap string string)
    (w w1 w2 : world) :
  script argv1 environ1 w = (Done (), w1) ->
  script argv2 environ2 w1 = (Done (), w2) ->
  contents w2 (target w) = contents w1 (target w)
  /\ contents w2 (target w) = Some guide_content
  /\ fs w2 = fs w1.
Proof.
  intros [Hw ->]%script_done_inv [Hw1 ->]%script_done_inv.
  assert (fs (emitted (emitted w)) = fs (emitted w)) as Hfs.
  { unfold emitted at 1; world_simpl. apply insert_insert_eq. }
  unfold contents. rewrite Hfs. split; [done|]. split; [|done].
  apply contents_emitted.
Qed.

Lemma emit_twice_same_content_witness :
  script ["multipass-setup.py"] ∅ empty_dir = (Done (), emitted empty_dir)
  /\ script ["multipass-setup.py"] ∅ (emitted empty_dir)
     = (Done (), emitted (emitted empty_dir))
  /\ contents (emitted (emitted empty_dir)) (target empty_dir)
     = contents (emitted empty_dir) (target empty_dir)
  /\ contents (emitted (emitted empty_dir)) (target empty_dir) = Some guide_content
  /\ fs (emitted (emitted empty_dir)) = fs (emitted empty_dir).
Proof.
  assert (script ["multipass-setup.py"] ∅ empty_dir = (Done (), emitted empty_dir)) as H1
    by (vm_compute; reflexivity).
  assert (script ["multipass-setup.py"] ∅ (emitted empty_dir)
          = (Done (), emitted (emitted empty_dir))) as H2
    by (vm_compute; reflexivity).
  split; [exact H1|]. split; [exact H2|].
  exact (emit_twice_same_content _ _ _ _ _ _ _ H1 H2).
Defined.

(** C3, as the specification states it, fails: the script takes no output
    path.  Started with [guide.md] on its command line in an empty writable
    directory it ends well and leaves no file of that name. *)
Lemma guide_md_is_not_written :
  fst (script ["multipass-setup.py"; "guide.md"] ∅ empty_dir) = Done ()
  /\ contents (snd (script ["multipass-setup.py"; "guide.md"] ∅ empty_dir))
       (resolve empty_dir "guide.md") = None.
Proof. split; vm_compute; reflexivity. Qed.

(** C3, amended.  The script takes no output path: whatever its command
    line, when it ends well a regular file exists under the fixed name
    [multipass_setup_guide.md] in the working directory, and its full
    contents are the guide text. *)
Theorem emit_creates_fixed_name (argv : list string)
    (environ : gmap string string) (w w' : world) :
  script argv environ w = (Done (), w') ->
  cwd w' = cwd w
  /\ contents w' (cwd w ++ ["multipass_setup_guide.md"]) = Some guide_content.
Proof.
  intros [_ ->]%script_done_inv. split; [reflexivity|].
  apply contents_emitted.
Qed.

Lemma emit_creates_fixed_name_witness :
  script ["multipass-setup.py"; "guide.md"] ∅ empty_dir = (Done (), emitted empty_dir)
  /\ cwd (emitted empty_dir) = cwd empty_dir
  /\ contents (emitted empty_dir) (cwd empty_dir ++ ["multipass_setup_guide.md"])
     = Some guide_content.
Proof.
  assert (script ["multipass-setup.py"; "guide.md"] ∅ empty_dir
          = (Done (), emitted empty_dir)) as H by (vm_compute; reflexivity).
  split; [exact H|].
  exact (emit_creates_fixed_name _ _ _ _ H).
Defined.






(** C7.  When the working directory is gone, or the access rights refuse
    the write, the script raises an [OSError] ([ENOENT] in the first case,
    [EACCES] in the second), the process exits with status 1, and the file
    system is the one the run found: the target is as it was before, and
    absent if it was absent. *)
Theorem unwritable_target_untouched (argv : list string)
    (environ : gmap string string) (w : world) :
  parent_missing w = true \/ write_denied w = true ->
  exists e,
    (e = ENOENT \/ e = EACCES)
    /\ script argv environ w
       = (Raised (OSError e (Some output_name)), record (EvOpen (target w)) w)
    /\ fst (run argv environ w) = 1
    /\ fs (snd (run argv environ w)) = fs w
    /\ fs (snd (run argv environ w)) !! target w = fs w !! target w
    /\ contents (snd (run argv environ w)) (target w) = contents w (target w).
Proof.
  intros Hcause.
  assert (exists e, (e = ENOENT \/ e = EACCES)
          /\ write_to_file w
             = (Raised (OSError e (Some output_name)), record (EvOpen (target w)) w))
    as (e & He & Hfail).
  { unfold write_to_file, with_open. destruct Hcause as [Hm|Hd].
    - exists ENOENT. split; [by left|].
      by rewrite (bind_raised _ _ _ _ _ (open_w_missing w Hm)).
    - exists EACCES. split; [by right|].
      by rewrite (bind_raised _ _ _ _ _ (open_w_denied w Hd)). }
  exists e. split; [done|].
  pose proof (script_raised argv environ _ _ _ Hfail) as Hrun.
  split; [done|].
  unfold run, contents. rewrite Hrun. cbn [fst snd].
  repeat split; reflexivity.
Qed.

Lemma unwritable_target_untouched_witness :
  (parent_missing readonly_dir = true \/ write_denied readonly_dir = true)
  /\ exists e,
    (e = ENOENT \/ e = EACCES)
    /\ script ["multipass-setup.py"] ∅ readonly_dir
       = (Raised (OSError e (Some output_name)),
          record (EvOpen (target readonly_dir)) readonly_dir)
    /\ fst (run ["multipass-setup.py"] ∅ readonly_dir) = 1
    /\ fs (snd (run ["multipass-setup.py"] ∅ readonly_dir)) = fs readonly_dir
    /\ fs (snd (run ["multipass-setup.py"] ∅ readonly_dir)) !! target readonly_dir
       = fs readonly_dir !! target readonly_dir
    /\ contents (snd (run ["multipass-setup.py"] ∅ readonly_dir)) (target readonly_dir)
       = contents readonly_dir (target readonly_dir).
Proof.
  assert (parent_missing readonly_dir = true \/ write_denied readonly_dir = true) as H
    by (right; vm_compute; reflexivity).
  split; [exact H|].
  exact (unwritable_target_untouched ["multipass-setup.py"] ∅ readonly_dir H).
Defined.

(** C8.  A run that ends well is [write_to_file] to its end and then
    [report]: at the point where the first line is printed the target holds
    the whole guide, the descriptor is closed, and standard output has
    received nothing; the requests of the run are one open, one write of the
    whole guide, one close, and after these the nine prints, which leave the
    file system alone. *)
Theorem write_completes_before_report (argv : list string)
    (environ : gmap string string) (w w' : world) :
  script argv environ w = (Done (), w') ->
  exists w1 fd,
    write_to_file w = (Done (), w1)
    /\ report w1 = (Done (), w')
    /\ contents w1 (target w) = Some guide_content
    /\ fds w1 !! fd = None
    /\ fds w1 = fds w
    /\ stdout w1 = stdout w
    /\ requests w w1 = [EvOpen (target w); EvWrite fd guide_content; EvClose fd]
    /\ requests w w' = requests w w1 ++ map EvPrint confirmation
    /\ fs w' = fs w1.
Proof.
  intros [Hw ->]%script_done_inv.
  exists (saved w), (fresh (dom (fds w))).
  split; [by apply write_to_file_done|].
  split; [by rewrite report_done, reported_saved|].
  split; [apply contents_saved|].
  split; [apply not_elem_of_dom, is_fresh|].
  split; [reflexivity|]. split; [reflexivity|].
  rewrite requests_saved, requests_emitted. done.
Qed.

Lemma write_completes_before_report_witness :
  script ["multipass-setup.py"] ∅ used_dir = (Done (), emitted used_dir)
  /\ exists w1 fd,
    write_to_file used_dir = (Done (), w1)
    /\ report w1 = (Done (), emitted used_dir)
    /\ contents w1 (target used_dir) = Some guide_content
    /\ fds w1 !! fd = None
    /\ fds w1 = fds used_dir
    /\ stdout w1 = stdout used_dir
    /\ requests used_dir w1
       = [EvOpen (target used_dir); EvWrite fd guide_content; EvClose fd]
    /\ requests used_dir (emitted used_dir)
       = requests used_dir w1 ++ map EvPrint confirmation
    /\ fs (emitted used_dir) = fs w1.
Proof.
  assert (script ["multipass-setup.py"] ∅ used_dir = (Done (), emitted used_dir)) as H
    by (vm_compute; reflexivity).
  split; [exact H|].
  exact (write_completes_before_report _ _ _ _ H).
Defined.





(** ** Further properties of the script *)

(** *** The outcome as a function of the starting world *)

Lemma open_errno_none (w : world) : open_errno w = None -> openable w = true.
Proof.
  unfold open_errno, openable.
  destruct (fs w !! cwd w) as [[?|dw]|]; try discriminate.
  destruct (fs w !! target w) as [[[] ?|?]|]; try discriminate; try done.
  by destruct dw.
Qed.

Lemma open_errno_some (w : world) (e : errno) :
  open_errno w = Some e ->
  openable w = false
  /\ open_w output_name w
     = (Raised (OSError e (Some output_name)), record (EvOpen (target w)) w).
Proof.
  unfold open_errno, openable, open_w, target.
  destruct (fs w !! cwd w) as [[?|dw]|]; try (intros [= <-]; done).
  destruct (fs w !! resolve w output_name) as [[[] ?|?]|];
    try destruct dw; try discriminate; intros [= <-]; done.
Qed.

(** [write_to_file] in full: which of its three ends it takes, and the world
    it leaves. *)
Lemma write_to_file_by_cause (w : world) :
  write_to_file w
  = match open_errno w with
    | Some e => (Raised (OSError e (Some output_name)), record (EvOpen (target w)) w)
    | None =>
        if (size guide_content <=? room w + reclaimed w)%N
        then (Done (), saved w)
        else (Raised (OSError ENOSPC None), cut_short w)
    end.
Proof.
  destruct (open_errno w) as [e|] eqn:Herr.
  - apply open_errno_some in Herr as [_ Hopen].
    unfold write_to_file, with_open. by rewrite (bind_raised _ _ _ _ _ Hopen).
  - apply open_errno_none in Herr.
    destruct (size guide_content <=? room w + reclaimed w)%N eqn:Hfit.
    + apply write_to_file_done. unfold writable. by rewrite Herr, Hfit.
    + apply write_to_file_cut_short; [done | by apply N.leb_gt].
Qed.

Lemma script_by_cause (argv : list string) (environ : gmap string string)
    (w : world) :
  script argv environ w
  = match open_errno w with
    | Some e => (Raised (OSError e (Some output_name)), record (EvOpen (target w)) w)
    | None =>
        if (size guide_content <=? room w + reclaimed w)%N
        then (Done (), emitted w)
        else (Raised (OSError ENOSPC None), cut_short w)
    end.
Proof.
  pose proof (write_to_file_by_cause w) as H.
  destruct (open_errno w) as [e|].
  - by apply script_raised.
  - destruct (size guide_content <=? room w + reclaimed w)%N.
    + unfold script. rewrite (bind_done _ _ _ _ _ H).
      by rewrite report_done, reported_saved.
    + by apply script_raised.
Qed.

Lemma writable_by_cause (w : world) :
  writable w
  = match open_errno w with
    | Some _ => false
    | None => (size guide_content <=? room w + reclaimed w)%N
    end.
Proof.
  unfold writable. destruct (open_errno w) as [e|] eqn:Herr.
  - apply open_errno_some in Herr as [-> _]. reflexivity.
  - apply open_errno_none in Herr as ->. reflexivity.
Qed.

(** What [run] adds to the outcome of [script]: the status, and the
    traceback on standard error. *)
Lemma run_by_cause (argv : list string) (environ : gmap string string)
    (w : world) :
  run argv environ w
  = match open_errno w with
    | Some e =>
        (1, set_stderr (stderr w +:+ traceback (OSError e (Some output_name)))
              (record (EvOpen (target w)) w))
    | None =>
        if (size guide_content <=? room w + reclaimed w)%N
        then (0, emitted w)
        else (1, set_stderr (stderr w +:+ traceback (OSError ENOSPC None))
                   (cut_short w))
    end.
Proof.
  unfold run. rewrite script_by_cause.
  destruct (open_errno w) as [e|]; [reflexivity|].
  by destruct (size guide_content <=? room w + reclaimed w)%N.
Qed.




(** X2.  The [with] statement leaks no descriptor: after a run, however it
    ended, the process has the descriptors open it had before, and the run
    closed a descriptor exactly when its [open] had handed one out, also
    when the write then raised. *)
Theorem descriptors_restored (argv : list string)
    (environ : gmap string string) (w : world) :
  fds (snd (run argv environ w)) = fds w
  /\ closed_fds (requests w (snd (run argv environ w)))
     = (if openable w then [fresh (dom (fds w))] else []).
Proof.
  rewrite run_by_cause.
  destruct (open_errno w) as [e|] eqn:Herr.
  - apply open_errno_some in Herr as [-> _]. cbn [fst snd]. split; [done|].
    change (closed_fds (requests w (record (EvOpen (target w)) w)) = []).
    by rewrite requests_refused.
  - apply open_errno_none in Herr as ->.
    destruct (size guide_content <=? room w + reclaimed w)%N; cbn [fst snd].
    + split; [done|]. by rewrite requests_emitted.
    + split; [done|].
      change (closed_fds (requests w (cut_short w)) = [fresh (dom (fds w))]).
      by rewrite requests_cut_short.
Qed.







(** X6.  Every way [open] can refuse, not only a missing directory or a
    denied right, ends the run before anything is touched: the exception is
    an [OSError] that carries the error number of the cause and the file
    name as the script wrote it, and the world after the script is the
    world before it with one request more in the log.  A directory in the
    place of the output file is such a cause ([EISDIR]); it is left as it
    is. *)
Theorem refused_open_touches_nothing (argv : list string)
    (environ : gmap string string) (w : world) (e : errno) :
  open_errno w = Some e ->
  script argv environ w
  = (Raised (OSError e (Some output_name)), record (EvOpen (target w)) w)
  /\ writable w = false
  /\ fs (snd (run argv environ w)) = fs w
  /\ room (snd (run argv environ w)) = room w
  /\ stdout (snd (run argv environ w)) = stdout w
  /\ stderr (snd (run argv environ w))
     = stderr w +:+ traceback (OSError e (Some output_name))
  /\ requests w (snd (run argv environ w)) = [EvOpen (target w)].
Proof.
  intros Herr.
  rewrite script_by_cause, run_by_cause, writable_by_cause, Herr. cbn [fst snd].
  repeat split.
  change (requests w (record (EvOpen (target w)) w) = [EvOpen (target w)]).
  apply requests_refused.
Qed.

Lemma refused_open_touches_nothing_witness :
  open_errno dir_in_the_way = Some EISDIR
  /\ script ["multipass-setup.py"] ∅ dir_in_the_way
     = (Raised (OSError EISDIR (Some output_name)),
        record (EvOpen (target dir_in_the_way)) dir_in_the_way)
  /\ writable dir_in_the_way = false
  /\ fs (snd (run ["multipass-setup.py"] ∅ dir_in_the_way)) = fs dir_in_the_way
  /\ room (snd (run ["multipass-setup.py"] ∅ dir_in_the_way)) = room dir_in_the_way
  /\ stdout (snd (run ["multipass-setup.py"] ∅ dir_in_the_way)) = stdout dir_in_the_way
  /\ stderr (snd (run ["multipass-setup.py"] ∅ dir_in_the_way))
     = stderr dir_in_the_way +:+ traceback (OSError EISDIR (Some output_name))
  /\ requests dir_in_the_way (snd (run ["multipass-setup.py"] ∅ dir_in_the_way))
     = [EvOpen (target dir_in_the_way)].
Proof.
  assert (open_errno dir_in_the_way = Some EISDIR) as H by (vm_compute; reflexivity).
  split; [exact H|].
  exact (refused_open_touches_nothing ["multipass-setup.py"] ∅ dir_in_the_way EISDIR H).
Defined.
